(** * libp2p_ffi.h: the C boundary of the peer-to-peer node

    The repository's only source file is a C header, [libp2p_ffi.h]: two
    struct types, two callback types and twelve function prototypes.  This
    development embeds the header as the list of its declarations, checks
    the embedding against the text of the file, and proves what the
    specification says about the interface.  The implementation behind the
    prototypes is not part of the sources; the lifecycle of a node, the
    strings handed to the caller and the callback registry are modelled from
    the specification in [Module Impl]. *)

From Stdlib Require Import ZArith Lia.
From stdpp Require Import base decidable option list strings gmap.

Local Open Scope string_scope.

(** ** C types of the header

    The file includes nothing: [bool], [uint8_t], [uint16_t] and
    [uintptr_t] are the types of [<stdbool.h>] and [<stdint.h>], taken here
    as the C standard defines them ([uint16_t] has exactly 16 bits, C11
    7.20.1.1). *)

Inductive ctype : Type :=
  | TVoid
  | TBool
  | TChar
  | TUInt8
  | TUInt16
  | TUIntPtr
  | TStruct (tag : string)
  | TNamed (name : string)
  | TConst (t : ctype)
  | TPtr (t : ctype).

#[global] Instance ctype_eq_dec : EqDecision ctype.
Proof. solve_decision. Defined.

(** A declarator: a type and the name it declares. *)
Record declarator : Type := Decl { d_type : ctype; d_name : string }.

#[global] Instance declarator_eq_dec : EqDecision declarator.
Proof. solve_decision. Defined.

(** The four shapes of declaration the header uses. *)
Inductive decl : Type :=
  | DTypedefFwd (tag name : string)
  | DTypedefStruct (tag : string) (fields : list declarator) (name : string)
  | DTypedefFnPtr (ret : ctype) (name : string) (params : list ctype)
  | DFunction (ret : ctype) (name : string) (params : list declarator).

#[global] Instance decl_eq_dec : EqDecision decl.
Proof. solve_decision. Defined.

(** Shorthands for the types that occur in the file. *)
Definition node_ptr : ctype := TPtr (TStruct "P2PNode").
Definition const_char_ptr : ctype := TPtr (TConst TChar).
Definition char_ptr : ctype := TPtr TChar.

(** ** The header, declaration by declaration *)

Definition NodeInner : decl := DTypedefFwd "NodeInner" "NodeInner".

Definition P2PNode : decl :=
  DTypedefStruct "P2PNode"
    [ Decl (TPtr (TStruct "NodeInner")) "inner" ]
    "P2PNode".

Definition P2PMessage : decl :=
  DTypedefStruct "P2PMessage"
    [ Decl const_char_ptr "peer_id";
      Decl const_char_ptr "topic";
      Decl const_char_ptr "data";
      Decl TUIntPtr "data_len" ]
    "P2PMessage".

Definition MessageCallback : decl :=
  DTypedefFnPtr TVoid "MessageCallback" [ TPtr (TConst (TStruct "P2PMessage")) ].

Definition PeerCallback : decl :=
  DTypedefFnPtr TVoid "PeerCallback" [ const_char_ptr; TBool ].

Definition p2p_node_create : decl :=
  DFunction node_ptr "p2p_node_create" [].

Definition p2p_node_destroy : decl :=
  DFunction TVoid "p2p_node_destroy" [ Decl node_ptr "node" ].

Definition p2p_node_initialize : decl :=
  DFunction TBool "p2p_node_initialize" [ Decl node_ptr "node" ].

Definition p2p_node_start_listening : decl :=
  DFunction TBool "p2p_node_start_listening"
    [ Decl node_ptr "node"; Decl TUInt16 "port" ].

Definition p2p_node_join_room : decl :=
  DFunction TBool "p2p_node_join_room"
    [ Decl node_ptr "node"; Decl const_char_ptr "room_id" ].

Definition p2p_node_send_message : decl :=
  DFunction TBool "p2p_node_send_message"
    [ Decl node_ptr "node"; Decl (TPtr (TConst TUInt8)) "data";
      Decl TUIntPtr "data_len" ].

Definition p2p_set_message_callback : decl :=
  DFunction TVoid "p2p_set_message_callback"
    [ Decl (TNamed "MessageCallback") "callback" ].

Definition p2p_set_peer_callback : decl :=
  DFunction TVoid "p2p_set_peer_callback"
    [ Decl (TNamed "PeerCallback") "callback" ].

Definition p2p_send_history_sync : decl :=
  DFunction TBool "p2p_send_history_sync"
    [ Decl node_ptr "node"; Decl const_char_ptr "entries_json";
      Decl const_char_ptr "device_id" ].

Definition p2p_get_peer_id : decl :=
  DFunction const_char_ptr "p2p_get_peer_id" [ Decl node_ptr "node" ].

Definition p2p_free_string : decl :=
  DFunction TVoid "p2p_free_string" [ Decl char_ptr "s" ].

Definition p2p_init_logging : decl :=
  DFunction TVoid "p2p_init_logging" [].

Definition libp2p_ffi_h : list decl :=
  [ NodeInner; P2PNode; P2PMessage; MessageCallback; PeerCallback;
    p2p_node_create; p2p_node_destroy; p2p_node_initialize;
    p2p_node_start_listening; p2p_node_join_room; p2p_node_send_message;
    p2p_set_message_callback; p2p_set_peer_callback; p2p_send_history_sync;
    p2p_get_peer_id; p2p_free_string; p2p_init_logging ].

(** ** Printing the declarations back as C

    [render_header] writes the embedding out in the layout of the file, so
    that the embedding can be compared with the forty lines of
    [libp2p_ffi.h] by computation. *)

Fixpoint render_type (t : ctype) : string :=
  match t with
  | TVoid => "void"
  | TBool => "bool"
  | TChar => "char"
  | TUInt8 => "uint8_t"
  | TUInt16 => "uint16_t"
  | TUIntPtr => "uintptr_t"
  | TStruct tag => "struct " +:+ tag
  | TNamed name => name
  | TConst t' => "const " +:+ render_type t'
  | TPtr t' => render_type t' +:+ "*"
  end.

(** A named declarator keeps the star next to the name. *)
Definition render_declarator (t : ctype) (name : string) : string :=
  match t with
  | TPtr t' => render_type t' +:+ " *" +:+ name
  | _ => render_type t +:+ " " +:+ name
  end.

Fixpoint join_comma (l : list string) : string :=
  match l with
  | [] => ""
  | [s] => s
  | s :: rest => s +:+ ", " +:+ join_comma rest
  end.

Definition render_params (params : list declarator) : string :=
  match params with
  | [] => "void"
  | _ => join_comma (map (fun d => render_declarator (d_type d) (d_name d)) params)
  end.

Definition render_decl (d : decl) : list string :=
  match d with
  | DTypedefFwd tag name =>
      [ "typedef struct " +:+ tag +:+ " " +:+ name +:+ ";" ]
  | DTypedefStruct tag fields name =>
      [ "typedef struct " +:+ tag +:+ " {" ]
      ++ map (fun f => "  " +:+ render_declarator (d_type f) (d_name f) +:+ ";") fields
      ++ [ "} " +:+ name +:+ ";" ]
  | DTypedefFnPtr ret name params =>
      [ "typedef " +:+ render_type ret +:+ " (*" +:+ name +:+ ")("
        +:+ join_comma (map render_type params) +:+ ");" ]
  | DFunction ret name params =>
      [ render_declarator ret (name +:+ "(" +:+ render_params params +:+ ")") +:+ ";" ]
  end.

(** Declarations are separated by one empty line. *)
Fixpoint render_header (h : list decl) : list string :=
  match h with
  | [] => []
  | [d] => render_decl d
  | d :: rest => render_decl d ++ [""] ++ render_header rest
  end.

(** The text of [libp2p_ffi.h], line by line. *)
Definition libp2p_ffi_h_text : list string :=
  [ "typedef struct NodeInner NodeInner;";
    "";
    "typedef struct P2PNode {";
    "  struct NodeInner *inner;";
    "} P2PNode;";
    "";
    "typedef struct P2PMessage {";
    "  const char *peer_id;";
    "  const char *topic;";
    "  const char *data;";
    "  uintptr_t data_len;";
    "} P2PMessage;";
    "";
    "typedef void (*MessageCallback)(const struct P2PMessage*);";
    "";
    "typedef void (*PeerCallback)(const char*, bool);";
    "";
    "struct P2PNode *p2p_node_create(void);";
    "";
    "void p2p_node_destroy(struct P2PNode *node);";
    "";
    "bool p2p_node_initialize(struct P2PNode *node);";
    "";
    "bool p2p_node_start_listening(struct P2PNode *node, uint16_t port);";
    "";
    "bool p2p_node_join_room(struct P2PNode *node, const char *room_id);";
    "";
    "bool p2p_node_send_message(struct P2PNode *node, const uint8_t *data, uintptr_t data_len);";
    "";
    "void p2p_set_message_callback(MessageCallback callback);";
    "";
    "void p2p_set_peer_callback(PeerCallback callback);";
    "";
    "bool p2p_send_history_sync(struct P2PNode *node, const char *entries_json, const char *device_id);";
    "";
    "const char *p2p_get_peer_id(struct P2PNode *node);";
    "";
    "void p2p_free_string(char *s);";
    "";
    "void p2p_init_logging(void);" ].

(** ** Reading the header *)

Record prototype : Type :=
  Proto { fn_ret : ctype; fn_name : string; fn_params : list declarator }.

#[global] Instance prototype_eq_dec : EqDecision prototype.
Proof. solve_decision. Defined.

Definition as_function (d : decl) : option prototype :=
  match d with
  | DFunction ret name params => Some (Proto ret name params)
  | _ => None
  end.

(** The function prototypes of a header, in the order of the file. *)
Definition functions (h : list decl) : list prototype := omap as_function h.

Definition lookup_function (h : list decl) (name : string) : option prototype :=
  List.find (fun p => bool_decide (fn_name p = name)) (functions h).

Definition param_names (p : prototype) : list string := map d_name (fn_params p).
Definition param_types (p : prototype) : list ctype := map d_type (fn_params p).

Definition param_type (h : list decl) (fn param : string) : option ctype :=
  p ← lookup_function h fn;
  d ← List.find (fun d => bool_decide (d_name d = param)) (fn_params p);
  Some (d_type d).

Definition return_type (h : list decl) (fn : string) : option ctype :=
  fn_ret <$> lookup_function h fn.

(** The body of [struct tag], when the header gives one.  A struct that is
    only named ([typedef struct T T;]) has none: it is an incomplete type. *)
Fixpoint struct_def (h : list decl) (tag : string) : option (list declarator) :=
  match h with
  | [] => None
  | DTypedefStruct tag' fields _ :: rest =>
      if bool_decide (tag' = tag) then Some fields else struct_def rest tag
  | _ :: rest => struct_def rest tag
  end.

(** The struct tags the header mentions in a typedef, defined or not. *)
Definition declared_struct (d : decl) : option string :=
  match d with
  | DTypedefFwd tag _ => Some tag
  | DTypedefStruct tag _ _ => Some tag
  | _ => None
  end.

Definition declared_structs (h : list decl) : list string := omap declared_struct h.

(** The signature behind a function-pointer typedef. *)
Fixpoint callback_signature (h : list decl) (name : string)
  : option (ctype * list ctype) :=
  match h with
  | [] => None
  | DTypedefFnPtr ret name' params :: rest =>
      if bool_decide (name' = name) then Some (ret, params)
      else callback_signature rest name
  | _ :: rest => callback_signature rest name
  end.

Definition as_callback_type (d : decl) : option string :=
  match d with
  | DTypedefFnPtr _ name _ => Some name
  | _ => None
  end.

(** The callback kinds of the header: its function-pointer typedefs. *)
Definition callback_types (h : list decl) : list string := omap as_callback_type h.

(** ** The C rules the claims rest on *)

Fixpoint strip_const (t : ctype) : ctype :=
  match t with
  | TConst t' => strip_const t'
  | _ => t
  end.

Definition is_const (t : ctype) : bool :=
  match t with
  | TConst _ => true
  | _ => false
  end.

(** A typedef name of a struct stands for the struct. *)
Fixpoint typedef_struct (h : list decl) (name : string) : option string :=
  match h with
  | [] => None
  | DTypedefFwd tag name' :: rest =>
      if bool_decide (name' = name) then Some tag else typedef_struct rest name
  | DTypedefStruct tag _ name' :: rest =>
      if bool_decide (name' = name) then Some tag else typedef_struct rest name
  | _ :: rest => typedef_struct rest name
  end.

Definition struct_tag_of (h : list decl) (t : ctype) : option string :=
  match strip_const t with
  | TStruct tag => Some tag
  | TNamed name => typedef_struct h name
  | _ => None
  end.

(** A type is complete when its size is known: [void] is not, and a struct
    is only when the header defines its body. *)
Definition complete (h : list decl) (t : ctype) : bool :=
  match strip_const t with
  | TVoid => false
  | TStruct tag => bool_decide (is_Some (struct_def h tag))
  | TNamed name =>
      match typedef_struct h name with
      | Some tag => bool_decide (is_Some (struct_def h tag))
      | None => true
      end
  | _ => true
  end.

(** The type of [e.f] for [e : t]: [t] must be a struct with a body that
    has a member [f]. *)
Definition field_type (h : list decl) (t : ctype) (f : string) : option ctype :=
  tag ← struct_tag_of h t;
  fields ← struct_def h tag;
  d ← List.find (fun d => bool_decide (d_name d = f)) fields;
  Some (d_type d).

(** The type of [e->f] for [e : t]. *)
Definition arrow_type (h : list decl) (t : ctype) (f : string) : option ctype :=
  match strip_const t with
  | TPtr t' => field_type h t' f
  | _ => None
  end.

(** The type of [e->f1->f2->...]. *)
Fixpoint path_type (h : list decl) (t : ctype) (path : list string) : option ctype :=
  match path with
  | [] => Some t
  | f :: rest => t' ← arrow_type h t f; path_type h t' rest
  end.

Definition is_arithmetic (t : ctype) : bool :=
  match strip_const t with
  | TBool | TChar | TUInt8 | TUInt16 | TUIntPtr => true
  | _ => false
  end.

(** Passing an argument converts it as if by assignment (C11 6.5.2.2 and
    6.5.16.1).  Between pointers the pointed-to types must agree up to
    qualifiers, or one of them is [void], and the parameter's pointed-to
    type must carry every qualifier of the argument's: a [const char *] is
    not accepted for a [char *] without a cast. *)
Definition assignable (dst src : ctype) : bool :=
  match strip_const dst, strip_const src with
  | TPtr d, TPtr s =>
      (bool_decide (strip_const d = strip_const s)
       || bool_decide (strip_const d = TVoid)
       || bool_decide (strip_const s = TVoid))
      && implb (is_const s) (is_const d)
  | d, s => (is_arithmetic d && is_arithmetic s) || bool_decide (d = s)
  end.

(** A cast that removes the qualifier of the pointed-to type. *)
Definition cast_away_const (t : ctype) : ctype :=
  match strip_const t with
  | TPtr t' => TPtr (strip_const t')
  | t' => t'
  end.

(** The value a parameter of an exact-width unsigned type (or [bool])
    receives for the integer the caller writes: the value modulo two to the
    width (C11 6.3.1.3; for [bool], 6.3.1.2).  The widths of [char] and
    [uintptr_t] are the platform's and are left out. *)
Definition pass_integer (t : ctype) (z : Z) : option Z :=
  match strip_const t with
  | TBool => Some (if Z.eqb z 0 then 0 else 1)%Z
  | TUInt8 => Some (z mod 2 ^ 8)%Z
  | TUInt16 => Some (z mod 2 ^ 16)%Z
  | _ => None
  end.

(** What a parameter or a result carries across the boundary. *)
Inductive kind : Type :=
  | KNothing
  | KFlag
  | KNode
  | KString
  | KMutableString
  | KBytes
  | KSize
  | KUInt16
  | KCallback (name : string)
  | KOther.

#[global] Instance kind_eq_dec : EqDecision kind.
Proof. solve_decision. Defined.

Definition kind_of (t : ctype) : kind :=
  match t with
  | TVoid => KNothing
  | TBool => KFlag
  | TPtr (TStruct tag) => if decide (tag = "P2PNode") then KNode else KOther
  | TPtr (TConst TChar) => KString
  | TPtr TChar => KMutableString
  | TPtr (TConst TUInt8) => KBytes
  | TUIntPtr => KSize
  | TUInt16 => KUInt16
  | TNamed name => KCallback name
  | _ => KOther
  end.

(** A function as the specification lists it: its name and what each
    parameter carries. *)
Definition entry_point (p : prototype) : string * list kind :=
  (fn_name p, map kind_of (param_types p)).

(** ** The properties the specification states of the declarations *)

Definition is_string_pointer (t : ctype) : bool :=
  match t with
  | TPtr pointee => bool_decide (strip_const pointee = TChar)
  | _ => false
  end.

(** An integer type wide enough for an error code. *)
Definition is_integer (t : ctype) : bool :=
  match strip_const t with
  | TChar | TUInt8 | TUInt16 | TUIntPtr => true
  | _ => false
  end.

(** The function reports its outcome as a [bool] or as a string pointer. *)
Definition reports_flag_or_string (p : prototype) : bool :=
  bool_decide (fn_ret p = TBool) || is_string_pointer (fn_ret p).

(** [consumer] has one parameter, which accepts what [producer] returns
    as it is. *)
Definition accepts_result_of (h : list decl) (consumer producer : string) : bool :=
  match lookup_function h consumer, lookup_function h producer with
  | Some c, Some p =>
      match param_types c with
      | [t] => assignable t (fn_ret p)
      | _ => false
      end
  | _, _ => false
  end.

Definition takes (k : kind) (p : prototype) : bool :=
  bool_decide (k ∈ map kind_of (param_types p)).

Definition has_param_named (name : string) (p : prototype) : bool :=
  bool_decide (name ∈ param_names p).

(** Does the type mention [struct tag], at any depth? *)
Fixpoint mentions_struct (tag : string) (t : ctype) : bool :=
  match t with
  | TStruct tag' => bool_decide (tag' = tag)
  | TConst t' | TPtr t' => mentions_struct tag t'
  | _ => false
  end.

Definition signature_mentions_struct (tag : string) (p : prototype) : bool :=
  mentions_struct tag (fn_ret p) || existsb (mentions_struct tag) (param_types p).

(** ** What the declarations let a caller and the library do *)

(** A pointer through which the pointed-to object can be written: the
    pointed-to type is not [const]. *)
Definition writes_through (t : ctype) : bool :=
  match strip_const t with
  | TPtr pointee => negb (is_const pointee)
  | _ => false
  end.

(** The parameters through which a function may write. *)
Definition writable_params (p : prototype) : list declarator :=
  filter (fun d => writes_through (d_type d) = true) (fn_params p).

(** An object of this type can be assigned to. *)
Definition modifiable (t : ctype) : bool := negb (is_const t).

(** A member selected from a [const] struct is [const] (C11 6.5.2.3). *)
Definition qualify_as (s t : ctype) : ctype :=
  if is_const s && negb (is_const t) then TConst t else t.

(** The type of the object [e.f] for [e : s], with the qualifier of [s]. *)
Definition member_type (h : list decl) (s : ctype) (f : string) : option ctype :=
  t ← field_type h s f; Some (qualify_as s t).

(** The type of the object [e->f] for [e : t]. *)
Definition arrow_member_type (h : list decl) (t : ctype) (f : string) : option ctype :=
  match strip_const t with
  | TPtr s => member_type h s f
  | _ => None
  end.

(** The caller can assign to [e->f] for [e : t]: the member exists and is
    not [const]. *)
Definition caller_can_overwrite (h : list decl) (t : ctype) (f : string) : bool :=
  match arrow_member_type h t f with
  | Some m => modifiable m
  | None => false
  end.

(** The types a declaration mentions. *)
Definition decl_types (d : decl) : list ctype :=
  match d with
  | DTypedefFwd _ _ => []
  | DTypedefStruct _ fields _ => map d_type fields
  | DTypedefFnPtr ret _ params => ret :: params
  | DFunction ret _ params => ret :: map d_type params
  end.

(** The name a typedef introduces. *)
Definition typedef_name (d : decl) : option string :=
  match d with
  | DTypedefFwd _ name => Some name
  | DTypedefStruct _ _ name => Some name
  | DTypedefFnPtr _ name _ => Some name
  | DFunction _ _ _ => None
  end.

Definition typedef_names (h : list decl) : list string := omap typedef_name h.

(** Every struct tag and typedef name in the type is among the given ones. *)
Fixpoint type_resolves (structs typedefs : list string) (t : ctype) : bool :=
  match t with
  | TStruct tag => bool_decide (tag ∈ structs)
  | TNamed name => bool_decide (name ∈ typedefs)
  | TConst t' | TPtr t' => type_resolves structs typedefs t'
  | _ => true
  end.

(** The type left when pointers and qualifiers are removed. *)
Fixpoint base_type (t : ctype) : ctype :=
  match t with
  | TConst t' | TPtr t' => base_type t'
  | _ => t
  end.

(** The standard header that declares a type the language does not have
    built in. *)
Definition standard_header (t : ctype) : option string :=
  match base_type t with
  | TBool => Some "stdbool.h"
  | TUInt8 | TUInt16 | TUIntPtr => Some "stdint.h"
  | _ => None
  end.

Definition standard_headers_needed (h : list decl) : list string :=
  remove_dups (omap standard_header (concat (map decl_types h))).

Fixpoint skip_blanks (s : string) : string :=
  match s with
  | String c rest => if Ascii.eqb c (Ascii.ascii_of_nat 32) then skip_blanks rest else s
  | EmptyString => s
  end.

(** A line of the file that is a preprocessor directive. *)
Definition is_directive (line : string) : bool :=
  String.prefix "#" (skip_blanks line).

(** The struct tags a header gives a body to, once per body. *)
Definition struct_body (d : decl) : option string :=
  match d with
  | DTypedefStruct tag _ _ => Some tag
  | _ => None
  end.

Definition struct_bodies (h : list decl) : list string := omap struct_body h.

(** The elements that occur again later in the list. *)
Fixpoint repeated (l : list string) : list string :=
  match l with
  | [] => []
  | x :: rest =>
      if bool_decide (x ∈ rest) then x :: repeated rest else repeated rest
  end.

(** The structs whose content a translation unit defines more than once,
    which C does not allow (C11 6.7.2.3). *)
Definition redefined_structs (h : list decl) : list string :=
  repeated (struct_bodies h).

(** Whether a value of type [src] can be passed, as it is, where [dst] is
    expected, when both types are found. *)
Definition flows (dst src : option ctype) : option bool :=
  d ← dst; s ← src; Some (assignable d s).

(** The port [p2p_node_start_listening] receives when the caller writes the
    integer [z]. *)
Definition port_received (z : Z) : option Z :=
  param_type libp2p_ffi_h "p2p_node_start_listening" "port"
    ≫= fun t => pass_integer t z.

(** ** The node behind the interface *)

Module Impl.

(** Modelled from the spec: the implementation of the twelve functions (the
    node table, the lifecycle of a node, the strings handed to the caller,
    the two callback slots) is not in the sources, which hold the header
    only.  The model follows the specification's testable properties: a
    created node is live until it is destroyed and no resource of it stays
    live after; a node operation is rejected unless the node has been
    initialized and not destroyed; a string returned to the caller is the
    caller's until it is released through the free function; a registration
    overwrites the slot of its kind.  Whether the network lets an accepted
    operation succeed, and where a new node or string is placed, is not
    specified: these are the [backend]'s answers. *)
Inductive phase : Type :=
  | Created
  | Initialized.

#[global] Instance phase_eq_dec : EqDecision phase.
Proof. solve_decision. Defined.

(** The operations that take a node, with their arguments. *)
Inductive node_op : Type :=
  | Initialize
  | StartListening (port : Z)
  | JoinRoom (room_id : string)
  | SendMessage (data : list Z)
  | SendHistorySync (entries_json device_id : string)
  | GetPeerId.

#[global] Instance node_op_eq_dec : EqDecision node_op.
Proof. solve_decision. Defined.

(** What a node operation returns: a [bool], or a string pointer (the
    address of the string) that may be null. *)
Inductive outcome : Type :=
  | Flag (b : bool)
  | Str (s : option N).

(** The failure value of an operation: [false], or the null pointer. *)
Definition rejected (op : node_op) : outcome :=
  match op with
  | GetPeerId => Str None
  | _ => Flag false
  end.

(** Modelled from the spec: the network stack and the allocator under the
    node, absent from the sources.  [attempt t h op] says whether the
    operation [op], once accepted for node [h] at time [t], goes through;
    [place_node] and [place_string] say where the next node and the next
    string would go, given the ones that are live.  Nothing is assumed of
    them: an address may be used again once it is free. *)
Record backend : Type :=
  Backend {
    attempt : nat -> N -> node_op -> bool;
    peer_id_of : N -> string;
    place_node : nat -> gmap N phase -> N;
    place_string : nat -> gmap N string -> N
  }.

(** Modelled from the spec: the state of the process, absent from the
    sources.  Handles, strings and callbacks are addresses; address 0 is the
    null pointer.  [nodes] holds the live nodes, [strings] the strings the
    caller owns. *)
Record process : Type :=
  Process {
    nodes : gmap N phase;
    strings : gmap N string;
    message_callback : option N;
    peer_callback : option N;
    clock : nat
  }.

Definition initial : process := Process ∅ ∅ None None 0.

Definition with_nodes (p : process) (m : gmap N phase) : process :=
  Process m (strings p) (message_callback p) (peer_callback p) (clock p).

Definition with_strings (p : process) (m : gmap N string) : process :=
  Process (nodes p) m (message_callback p) (peer_callback p) (clock p).

Definition tick (p : process) : process :=
  Process (nodes p) (strings p) (message_callback p) (peer_callback p)
    (S (clock p)).

(** Modelled from the spec: [p2p_node_destroy]; no resource of the node
    stays live.  The strings already handed to the caller are the caller's
    and stay. *)
Definition destroy (p : process) (h : N) : process :=
  with_nodes p (delete h (nodes p)).

(** Modelled from the spec: [p2p_free_string]. *)
Definition free_string (p : process) (s : N) : process :=
  with_strings p (delete s (strings p)).

(** Modelled from the spec: [p2p_set_message_callback] and
    [p2p_set_peer_callback]. *)
Definition set_message_callback (p : process) (cb : N) : process :=
  Process (nodes p) (strings p) (Some cb) (peer_callback p) (clock p).

Definition set_peer_callback (p : process) (cb : N) : process :=
  Process (nodes p) (strings p) (message_callback p) (Some cb) (clock p).

(** The handlers a received message, or a peer event, is handed to. *)
Definition message_handlers (p : process) : list N :=
  option_list (message_callback p).

Definition peer_handlers (p : process) : list N :=
  option_list (peer_callback p).

(** One call through the interface. *)
Inductive call : Type :=
  | CCreate
  | CDestroy (h : N)
  | CNode (h : N) (op : node_op)
  | CSetMessageCallback (cb : N)
  | CSetPeerCallback (cb : N)
  | CFreeString (s : N)
  | CInitLogging.

#[global] Instance call_eq_dec : EqDecision call.
Proof. solve_decision. Defined.

Inductive reply : Type :=
  | RNode (h : N)
  | RUnit
  | ROutcome (o : outcome).

Section WithBackend.

Variable net : backend.

(** Modelled from the spec: [p2p_node_create].  The node goes where the
    backend places it; a place that is null or taken gives no node, and the
    null pointer is returned. *)
Definition create (p : process) : process * N :=
  let h := place_node net (clock p) (nodes p) in
  if bool_decide (h ≠ 0%N ∧ nodes p !! h = None)
  then (with_nodes p (<[h := Created]> (nodes p)), h)
  else (p, 0%N).

(** Modelled from the spec: [p2p_get_peer_id] on a node that accepts it.
    The string is new and the caller's; when the backend refuses, or has no
    free place for it, the result is null. *)
Definition get_peer_id (p : process) (h : N) : process * outcome :=
  let s := place_string net (clock p) (strings p) in
  if attempt net (clock p) h GetPeerId
     && bool_decide (s ≠ 0%N ∧ strings p !! s = None)
  then (with_strings p (<[s := peer_id_of net h]> (strings p)), Str (Some s))
  else (p, Str None).

(** Modelled from the spec: the six functions that take a node and
    return a result. *)
Definition node_call (p : process) (h : N) (op : node_op) : process * outcome :=
  match nodes p !! h, op with
  | Some Created, Initialize =>
      if attempt net (clock p) h Initialize
      then (with_nodes p (<[h := Initialized]> (nodes p)), Flag true)
      else (p, Flag false)
  | Some Initialized, GetPeerId => get_peer_id p h
  | Some Initialized, _ => (p, Flag (attempt net (clock p) h op))
  | _, _ => (p, rejected op)
  end.

(** One call through the interface, and its effect. *)
Definition step (p : process) (c : call) : process * reply :=
  match c with
  | CCreate => let '(p', h) := create p in (tick p', RNode h)
  | CDestroy h => (tick (destroy p h), RUnit)
  | CNode h op => let '(p', o) := node_call p h op in (tick p', ROutcome o)
  | CSetMessageCallback cb => (tick (set_message_callback p cb), RUnit)
  | CSetPeerCallback cb => (tick (set_peer_callback p cb), RUnit)
  | CFreeString s => (tick (free_string p s), RUnit)
  | CInitLogging => (tick p, RUnit)
  end.

(** A sequence of calls, from left to right. *)
Fixpoint run (p : process) (cs : list call) : process :=
  match cs with
  | [] => p
  | c :: rest => run (step p c).1 rest
  end.


(** Whether [p2p_node_create] returned the handle [h], not null, somewhere
    in the sequence: from then on [h] names the new node. *)
Fixpoint handed_again (p : process) (cs : list call) (h : N) : bool :=
  match cs with
  | [] => false
  | c :: rest =>
      match c, (step p c).2 with
      | CCreate, RNode h' =>
          (bool_decide (h' = h) && bool_decide (h' ≠ 0%N))
          || handed_again (step p c).1 rest h
      | _, _ => handed_again (step p c).1 rest h
      end
  end.

End WithBackend.

(** The last registration of each kind in a sequence of calls. *)
Fixpoint last_message_registration (cs : list call) : option N :=
  match cs with
  | [] => None
  | CSetMessageCallback cb :: rest =>
      Some (default cb (last_message_registration rest))
  | _ :: rest => last_message_registration rest
  end.

Fixpoint last_peer_registration (cs : list call) : option N :=
  match cs with
  | [] => None
  | CSetPeerCallback cb :: rest =>
      Some (default cb (last_peer_registration rest))
  | _ :: rest => last_peer_registration rest
  end.

(** A backend on which every accepted operation goes through and no address
    is used twice: the place of a node or a string follows the clock. *)
Definition always_up : backend :=
  Backend (fun _ _ _ => true) (fun _ => "peer")
    (fun t _ => N.of_nat (S t)) (fun t _ => N.of_nat (S t)).

(** A backend that uses the lowest free address again. *)
Definition reusing : backend :=
  Backend (fun _ _ _ => true) (fun _ => "peer")
    (fun _ m => if bool_decide (m !! 1%N = None) then 1%N else 2%N)
    (fun _ m => if bool_decide (m !! 1%N = None) then 1%N else 2%N).

End Impl.

(** * Theorems *)

(** ** The embedding is the file *)

Lemma render_header_is_source : render_header libp2p_ffi_h = libp2p_ffi_h_text.
Proof. vm_compute. reflexivity. Qed.

Lemma libp2p_ffi_h_text_length : length libp2p_ffi_h_text = 40%nat.
Proof. reflexivity. Qed.

(** ** Facts about the C rules *)

Lemma strip_const_idempotent (t : ctype) : strip_const (strip_const t) = strip_const t.
Proof. induction t; simpl; auto. Qed.

Lemma strip_const_not_const (t : ctype) : is_const (strip_const t) = false.
Proof. induction t; simpl; auto. Qed.

(** Nothing can be selected from a struct without a body. *)
Lemma field_type_incomplete (h : list decl) (tag f : string) :
  struct_def h tag = None → field_type h (TStruct tag) f = None.
Proof. intros Hdef. unfold field_type. simpl. rewrite Hdef. reflexivity. Qed.

Lemma arrow_type_incomplete (h : list decl) (tag f : string) :
  struct_def h tag = None → arrow_type h (TPtr (TStruct tag)) f = None.
Proof. intros Hdef. simpl. by apply field_type_incomplete. Qed.

(** Once the qualifier is cast away, a pointer is accepted where a pointer
    to the same unqualified type is expected. *)
Lemma assignable_cast_away_const (t : ctype) :
  assignable (TPtr (strip_const t)) (cast_away_const (TPtr t)) = true.
Proof.
  unfold assignable, cast_away_const. simpl.
  rewrite strip_const_idempotent, bool_decide_eq_true_2 by reflexivity.
  simpl. by rewrite strip_const_not_const.
Qed.

(** A value passed as [uint16_t] arrives reduced modulo 65536. *)
Lemma pass_integer_uint16 (z : Z) :
  pass_integer TUInt16 z = Some (z mod 65536)%Z ∧ (0 ≤ z mod 65536 ≤ 65535)%Z.
Proof.
  split; [reflexivity |].
  pose proof (Z.mod_pos_bound z 65536 ltac:(lia)). lia.
Qed.

(** ** The interface *)

(** C1: the header declares exactly twelve functions, in this order, with
    these names and parameters (what each parameter carries, and its name
    in the file); [p2p_get_peer_id] returns a string pointer; the five other
    declarations of the file are types, so no other entry point exists. *)
Theorem interface_is_the_twelve_functions :
  map entry_point (functions libp2p_ffi_h) =
    [ ("p2p_node_create", []);
      ("p2p_node_destroy", [KNode]);
      ("p2p_node_initialize", [KNode]);
      ("p2p_node_start_listening", [KNode; KUInt16]);
      ("p2p_node_join_room", [KNode; KString]);
      ("p2p_node_send_message", [KNode; KBytes; KSize]);
      ("p2p_set_message_callback", [KCallback "MessageCallback"]);
      ("p2p_set_peer_callback", [KCallback "PeerCallback"]);
      ("p2p_send_history_sync", [KNode; KString; KString]);
      ("p2p_get_peer_id", [KNode]);
      ("p2p_free_string", [KMutableString]);
      ("p2p_init_logging", []) ]
  ∧ map (fun p => (fn_name p, param_names p)) (functions libp2p_ffi_h) =
    [ ("p2p_node_create", []);
      ("p2p_node_destroy", ["node"]);
      ("p2p_node_initialize", ["node"]);
      ("p2p_node_start_listening", ["node"; "port"]);
      ("p2p_node_join_room", ["node"; "room_id"]);
      ("p2p_node_send_message", ["node"; "data"; "data_len"]);
      ("p2p_set_message_callback", ["callback"]);
      ("p2p_set_peer_callback", ["callback"]);
      ("p2p_send_history_sync", ["node"; "entries_json"; "device_id"]);
      ("p2p_get_peer_id", ["node"]);
      ("p2p_free_string", ["s"]);
      ("p2p_init_logging", []) ]
  ∧ length (functions libp2p_ffi_h) = 12%nat
  ∧ NoDup (map fn_name (functions libp2p_ffi_h))
  ∧ is_string_pointer <$> return_type libp2p_ffi_h "p2p_get_peer_id" = Some true
  ∧ length libp2p_ffi_h = (length (declared_structs libp2p_ffi_h)
                           + length (callback_types libp2p_ffi_h)
                           + length (functions libp2p_ffi_h))%nat.
Proof.
  split_and!; try reflexivity.
  apply (bool_decide_unpack _). vm_compute. reflexivity.
Qed.

(** C2, as the specification states it, fails: [p2p_node_destroy] returns
    [void], which is neither [bool] nor a string pointer, and so do four
    more functions; [p2p_node_create] returns a node pointer. *)
Lemma destroy_reports_nothing :
  lookup_function libp2p_ffi_h "p2p_node_destroy"
    = Some (Proto TVoid "p2p_node_destroy" [Decl node_ptr "node"])
  ∧ reports_flag_or_string (Proto TVoid "p2p_node_destroy" [Decl node_ptr "node"]) = false
  ∧ forallb reports_flag_or_string (functions libp2p_ffi_h) = false
  ∧ map fn_name (filter (fun p => reports_flag_or_string p = false) (functions libp2p_ffi_h))
    = [ "p2p_node_create"; "p2p_node_destroy"; "p2p_set_message_callback";
        "p2p_set_peer_callback"; "p2p_free_string"; "p2p_init_logging" ].
Proof. split_and!; vm_compute; reflexivity. Qed.

(** C2, amended: of the twelve functions, five return [bool], one
    ([p2p_get_peer_id]) a string pointer, one ([p2p_node_create]) a node
    pointer, and five return [void]; no function returns an integer that
    could be an error code. *)
Theorem results_are_flag_string_node_or_void :
  map (fun p => (fn_name p, kind_of (fn_ret p))) (functions libp2p_ffi_h) =
    [ ("p2p_node_create", KNode);
      ("p2p_node_destroy", KNothing);
      ("p2p_node_initialize", KFlag);
      ("p2p_node_start_listening", KFlag);
      ("p2p_node_join_room", KFlag);
      ("p2p_node_send_message", KFlag);
      ("p2p_set_message_callback", KNothing);
      ("p2p_set_peer_callback", KNothing);
      ("p2p_send_history_sync", KFlag);
      ("p2p_get_peer_id", KString);
      ("p2p_free_string", KNothing);
      ("p2p_init_logging", KNothing) ]
  ∧ forallb (fun p => reports_flag_or_string p
                      || bool_decide (fn_ret p = TVoid)
                      || bool_decide (fn_ret p = node_ptr))
      (functions libp2p_ffi_h) = true
  ∧ existsb (fun p => is_integer (fn_ret p)) (functions libp2p_ffi_h) = false.
Proof. split_and!; vm_compute; reflexivity. Qed.

(** ** The node handle *)

(** From a node pointer, [->inner] is the only selection that types, and
    nothing can be selected after it. *)
Lemma node_paths (path : list string) :
  path_type libp2p_ffi_h node_ptr path =
    if decide (path = []) then Some node_ptr
    else if decide (path = ["inner"]) then Some (TPtr (TStruct "NodeInner"))
    else None.
Proof.
  destruct path as [|f rest]; [reflexivity |].
  rewrite decide_False by discriminate.
  destruct (decide (f = "inner")) as [-> | Hf].
  - destruct rest as [|g rest]; [reflexivity |].
    rewrite decide_False by discriminate.
    change (path_type libp2p_ffi_h node_ptr ("inner" :: g :: rest))
      with (t' ← arrow_type libp2p_ffi_h (TPtr (TStruct "NodeInner")) g;
            path_type libp2p_ffi_h t' rest).
    by rewrite arrow_type_incomplete.
  - rewrite decide_False by congruence.
    cbn [path_type].
    replace (arrow_type libp2p_ffi_h node_ptr f) with (@None ctype); [reflexivity |].
    symmetry. unfold arrow_type, node_ptr. cbn [strip_const].
    unfold field_type. cbn [struct_tag_of strip_const mbind option_bind].
    change (struct_def libp2p_ffi_h "P2PNode")
      with (Some [Decl (TPtr (TStruct "NodeInner")) "inner"]).
    cbn [mbind option_bind List.find d_name].
    by rewrite bool_decide_eq_false_2 by congruence.
Qed.

(** What can be selected from a node pointer: the member [inner], a pointer
    the caller may assign to, and nothing else. *)
Lemma node_members (f : string) :
  arrow_member_type libp2p_ffi_h node_ptr f =
    (if decide (f = "inner") then Some (TPtr (TStruct "NodeInner")) else None)
  ∧ caller_can_overwrite libp2p_ffi_h node_ptr f = bool_decide (f = "inner").
Proof.
  unfold caller_can_overwrite, arrow_member_type, member_type, field_type, node_ptr.
  cbn [strip_const struct_tag_of mbind option_bind].
  change (struct_def libp2p_ffi_h "P2PNode")
    with (Some [Decl (TPtr (TStruct "NodeInner")) "inner"]).
  cbn [mbind option_bind List.find d_name].
  destruct (decide (f = "inner")) as [-> | Hf].
  - by rewrite bool_decide_eq_true_2.
  - rewrite bool_decide_eq_false_2 by congruence.
    by rewrite bool_decide_eq_false_2.
Qed.

(** C5, as the specification states it, fails in its last clause: the
    handle is a pointer to [struct P2PNode], which the header defines, and
    its member [inner] is not [const]: the caller can read it and assign to
    it without calling any declared function. *)
Lemma node_handle_member_is_writable :
  complete libp2p_ffi_h (TStruct "P2PNode") = true
  ∧ struct_def libp2p_ffi_h "P2PNode" = Some [Decl (TPtr (TStruct "NodeInner")) "inner"]
  ∧ arrow_member_type libp2p_ffi_h node_ptr "inner" = Some (TPtr (TStruct "NodeInner"))
  ∧ modifiable (TPtr (TStruct "NodeInner")) = true
  ∧ caller_can_overwrite libp2p_ffi_h node_ptr "inner" = true.
Proof. split_and!; vm_compute; reflexivity. Qed.

(** C5, amended: [NodeInner] is named by the header and given no body, so
    it is an incomplete type: no member of the node's state can be selected
    or assigned, and no function takes or returns a [NodeInner].  The handle
    struct [P2PNode] is defined: its one member [inner], a pointer to the
    incomplete type, is the only thing the caller can select from a node
    pointer and the only thing it can assign to.  Beyond that pointer the
    caller reaches the node through the declared functions only, the seven
    that take it. *)
Theorem node_state_is_opaque_behind_inner (f : string) (path : list string) :
  "NodeInner" ∈ declared_structs libp2p_ffi_h
  ∧ struct_def libp2p_ffi_h "NodeInner" = None
  ∧ complete libp2p_ffi_h (TStruct "NodeInner") = false
  ∧ field_type libp2p_ffi_h (TStruct "NodeInner") f = None
  ∧ arrow_member_type libp2p_ffi_h (TPtr (TStruct "NodeInner")) f = None
  ∧ caller_can_overwrite libp2p_ffi_h (TPtr (TStruct "NodeInner")) f = false
  ∧ struct_def libp2p_ffi_h "P2PNode" = Some [Decl (TPtr (TStruct "NodeInner")) "inner"]
  ∧ complete libp2p_ffi_h (TStruct "P2PNode") = true
  ∧ arrow_member_type libp2p_ffi_h node_ptr f =
      (if decide (f = "inner") then Some (TPtr (TStruct "NodeInner")) else None)
  ∧ caller_can_overwrite libp2p_ffi_h node_ptr f = bool_decide (f = "inner")
  ∧ path_type libp2p_ffi_h node_ptr path =
      (if decide (path = []) then Some node_ptr
       else if decide (path = ["inner"]) then Some (TPtr (TStruct "NodeInner"))
       else None)
  ∧ existsb (signature_mentions_struct "NodeInner") (functions libp2p_ffi_h) = false
  ∧ map fn_name (filter (fun p => takes KNode p = true) (functions libp2p_ffi_h)) =
      [ "p2p_node_destroy"; "p2p_node_initialize"; "p2p_node_start_listening";
        "p2p_node_join_room"; "p2p_node_send_message"; "p2p_send_history_sync";
        "p2p_get_peer_id" ].
Proof.
  assert (field_type libp2p_ffi_h (TStruct "NodeInner") f = None) as Hfield
    by by apply field_type_incomplete.
  split_and!.
  - apply (bool_decide_unpack _). vm_compute. reflexivity.
  - reflexivity.
  - reflexivity.
  - exact Hfield.
  - unfold arrow_member_type, member_type. cbn [strip_const]. by rewrite Hfield.
  - unfold caller_can_overwrite, arrow_member_type, member_type.
    cbn [strip_const]. by rewrite Hfield.
  - reflexivity.
  - reflexivity.
  - apply node_members.
  - apply node_members.
  - apply node_paths.
  - vm_compute. reflexivity.
  - vm_compute. reflexivity.
Qed.

(** ** Messages *)

(** C6: [P2PMessage] has exactly four members, in this order: the peer
    identifier and the topic (strings), the payload (a pointer to constant
    bytes) and its length; the message callback takes one argument, a
    pointer to a constant [P2PMessage], and returns nothing. *)
Theorem message_has_four_parts :
  struct_def libp2p_ffi_h "P2PMessage" =
    Some [ Decl const_char_ptr "peer_id"; Decl const_char_ptr "topic";
           Decl const_char_ptr "data"; Decl TUIntPtr "data_len" ]
  ∧ length <$> struct_def libp2p_ffi_h "P2PMessage" = Some 4%nat
  ∧ is_string_pointer <$> field_type libp2p_ffi_h (TStruct "P2PMessage") "peer_id" = Some true
  ∧ is_string_pointer <$> field_type libp2p_ffi_h (TStruct "P2PMessage") "topic" = Some true
  ∧ field_type libp2p_ffi_h (TStruct "P2PMessage") "data" = Some (TPtr (TConst TChar))
  ∧ kind_of <$> field_type libp2p_ffi_h (TStruct "P2PMessage") "data_len" = Some KSize
  ∧ callback_signature libp2p_ffi_h "MessageCallback" =
      Some (TVoid, [TPtr (TConst (TStruct "P2PMessage"))])
  ∧ complete libp2p_ffi_h (TStruct "P2PMessage") = true.
Proof. split_and!; vm_compute; reflexivity. Qed.

(** ** Strings *)

(** C8, as the specification states it, fails: [p2p_get_peer_id] returns a
    [const char *] and [p2p_free_string] takes a [char *]; passing the one
    for the other drops a qualifier, which assignment does not allow. *)
Lemma peer_id_not_accepted_by_free_string :
  accepts_result_of libp2p_ffi_h "p2p_free_string" "p2p_get_peer_id" = false
  ∧ return_type libp2p_ffi_h "p2p_get_peer_id" = Some (TPtr (TConst TChar))
  ∧ param_type libp2p_ffi_h "p2p_free_string" "s" = Some (TPtr TChar)
  ∧ assignable (TPtr TChar) (TPtr (TConst TChar)) = false.
Proof. split_and!; vm_compute; reflexivity. Qed.

(** ** The listening port *)

(** C9: the port of [p2p_node_start_listening] is a [uint16_t]; whatever
    integer the caller writes, the function receives it modulo 65536, a
    value from 0 to 65535. *)
Theorem listening_port_is_16_bits (requested : Z) :
  param_type libp2p_ffi_h "p2p_node_start_listening" "port" = Some TUInt16
  ∧ (param_type libp2p_ffi_h "p2p_node_start_listening" "port"
       ≫= fun t => pass_integer t requested) = Some (requested mod 65536)%Z
  ∧ (0 ≤ requested mod 65536 ≤ 65535)%Z.
Proof.
  destruct (pass_integer_uint16 requested) as [Hpass Hrange].
  split; [reflexivity | split; [exact Hpass | exact Hrange]].
Qed.

(** ** Sending *)

(** C10: [p2p_node_send_message] takes the node, a pointer to constant
    bytes and a length, and nothing else: none of its parameters is a
    string, a room or a topic.  A received message has a [topic] member, and
    [p2p_node_join_room] is the only function with a room parameter. *)
Theorem send_message_takes_no_topic :
  fn_params <$> lookup_function libp2p_ffi_h "p2p_node_send_message" =
    Some [ Decl node_ptr "node"; Decl (TPtr (TConst TUInt8)) "data";
           Decl TUIntPtr "data_len" ]
  ∧ entry_point <$> lookup_function libp2p_ffi_h "p2p_node_send_message" =
    Some ("p2p_node_send_message", [KNode; KBytes; KSize])
  ∧ param_type libp2p_ffi_h "p2p_node_send_message" "topic" = None
  ∧ param_type libp2p_ffi_h "p2p_node_send_message" "room_id" = None
  ∧ takes KString <$> lookup_function libp2p_ffi_h "p2p_node_send_message" = Some false
  ∧ field_type libp2p_ffi_h (TStruct "P2PMessage") "topic" = Some const_char_ptr
  ∧ map fn_name (filter (fun p => has_param_named "room_id" p = true) (functions libp2p_ffi_h))
    = ["p2p_node_join_room"]
  ∧ map fn_name (filter (fun p => has_param_named "topic" p = true) (functions libp2p_ffi_h))
    = [].
Proof. split_and!; vm_compute; reflexivity. Qed.

(** ** The lifecycle of a node *)

Section Lifecycle.

Import Impl.

Variable net : backend.

Lemma run_app (p : process) (cs1 cs2 : list call) :
  run net p (cs1 ++ cs2) = run net (run net p cs1) cs2.
Proof. revert p. induction cs1 as [|c cs1 IH]; intros p; simpl; [done | apply IH]. Qed.

(** Asking for the peer identifier leaves the nodes and the slots alone. *)
Lemma get_peer_id_frame (p : process) (h : N) :
  nodes (get_peer_id net p h).1 = nodes p
  ∧ message_callback (get_peer_id net p h).1 = message_callback p
  ∧ peer_callback (get_peer_id net p h).1 = peer_callback p.
Proof. unfold get_peer_id. by case_match. Qed.














End Lifecycle.

Import Impl.



(** Why the handle must not have been handed out again: on a backend that
    uses the lowest free address, the handle of a destroyed node is returned
    by the next [p2p_node_create] and then names the new node, which accepts
    operations once it is initialized. *)
Lemma reused_handle_names_a_new_node :
  handed_again reusing
    (destroy (run reusing initial [CCreate; CNode 1 Initialize]) 1)
    [CCreate; CNode 1 Initialize] 1 = true
  ∧ (node_call reusing
       (run reusing
          (destroy (run reusing initial [CCreate; CNode 1 Initialize]) 1)
          [CCreate; CNode 1 Initialize]) 1 (StartListening 80)).2
    = Flag true.
Proof. split; vm_compute; reflexivity. Qed.

(** ** The callback slots *)

Section Callbacks.

Variable net : backend.

Lemma node_call_callbacks (p : process) (h : N) (op : node_op) :
  message_callback (node_call net p h op).1 = message_callback p
  ∧ peer_callback (node_call net p h op).1 = peer_callback p.
Proof.
  unfold node_call.
  destruct (nodes p !! h) as [[]|]; destruct op; simpl; try done;
    try (by destruct (get_peer_id_frame net p h) as (_ & ? & ?)).
  by destruct (attempt net (clock p) h Initialize).
Qed.

Lemma create_callbacks (p : process) :
  message_callback (create net p).1 = message_callback p
  ∧ peer_callback (create net p).1 = peer_callback p.
Proof. unfold create. by case_bool_decide. Qed.

(** A call writes the message slot only when it registers a message
    callback, and then overwrites it. *)
Lemma step_message_callback (p : process) (c : call) :
  message_callback (step net p c).1 =
    match c with
    | CSetMessageCallback cb => Some cb
    | _ => message_callback p
    end.
Proof.
  destruct c as [| h | h op | cb | cb | s |]; simpl; try done.
  - destruct (create net p) as [p' h] eqn:Hcall.
    pose proof (create_callbacks p) as [Hm _]. by rewrite Hcall in Hm.
  - destruct (node_call net p h op) as [p' o] eqn:Hcall.
    pose proof (node_call_callbacks p h op) as [Hm _]. by rewrite Hcall in Hm.
Qed.

Lemma step_peer_callback (p : process) (c : call) :
  peer_callback (step net p c).1 =
    match c with
    | CSetPeerCallback cb => Some cb
    | _ => peer_callback p
    end.
Proof.
  destruct c as [| h | h op | cb | cb | s |]; simpl; try done.
  - destruct (create net p) as [p' h] eqn:Hcall.
    pose proof (create_callbacks p) as [_ Hp]. by rewrite Hcall in Hp.
  - destruct (node_call net p h op) as [p' o] eqn:Hcall.
    pose proof (node_call_callbacks p h op) as [_ Hp]. by rewrite Hcall in Hp.
Qed.

(** After any sequence of calls the message slot holds the last callback
    registered in it, or what it held before when there was none. *)
Lemma run_message_callback (cs : list call) (p : process) :
  message_callback (run net p cs) =
    match last_message_registration cs with
    | Some cb => Some cb
    | None => message_callback p
    end.
Proof.
  revert p. induction cs as [|c cs IH]; intros p; [done |].
  cbn [run]. rewrite IH, step_message_callback.
  destruct c; simpl; try done.
  by destruct (last_message_registration cs).
Qed.

Lemma run_peer_callback (cs : list call) (p : process) :
  peer_callback (run net p cs) =
    match last_peer_registration cs with
    | Some cb => Some cb
    | None => peer_callback p
    end.
Proof.
  revert p. induction cs as [|c cs IH]; intros p; [done |].
  cbn [run]. rewrite IH, step_peer_callback.
  destruct c; simpl; try done.
  by destruct (last_peer_registration cs).
Qed.



End Callbacks.

(** C4: after any sequence of calls each slot holds the last callback
    registered for its kind; in particular, registering [f] and then [g],
    after anything, leaves [g] as the only handler of that kind, for the
    message callback and for the peer callback alike. *)
Theorem registration_replaces
    (net : backend) (p : process) (cs : list call) (f g : N) :
  message_callback (run net p cs) =
    match last_message_registration cs with
    | Some cb => Some cb
    | None => message_callback p
    end
  ∧ peer_callback (run net p cs) =
    match last_peer_registration cs with
    | Some cb => Some cb
    | None => peer_callback p
    end
  ∧ message_handlers
      (run net p (cs ++ [CSetMessageCallback f; CSetMessageCallback g])) = [g]
  ∧ peer_handlers
      (run net p (cs ++ [CSetPeerCallback f; CSetPeerCallback g])) = [g].
Proof.
  split_and!.
  - apply run_message_callback.
  - apply run_peer_callback.
  - unfold message_handlers. by rewrite run_app, run_message_callback.
  - unfold peer_handlers. by rewrite run_app, run_peer_callback.
Qed.


(** ** The strings the caller owns *)

Section Strings.

Variable net : backend.

(** A string pointer that [p2p_get_peer_id] returns is not null and names a
    new string, which is the caller's from then on. *)
Lemma get_peer_id_owned (p p' : process) (h s : N) :
  node_call net p h GetPeerId = (p', Str (Some s)) →
  s ≠ 0%N ∧ strings p !! s = None ∧ strings p' !! s = Some (peer_id_of net h).
Proof.
  unfold node_call.
  destruct (nodes p !! h) as [[]|]; try discriminate.
  unfold get_peer_id.
  destruct (attempt net (clock p) h GetPeerId); cbn [andb]; [| discriminate].
  case_bool_decide as Hplace; [| discriminate].
  destruct Hplace as [Hnonnull Hfree].
  intros [= <- <-]. split_and!; [done | done | apply lookup_insert_eq].
Qed.

(** A node operation releases no string. *)
Lemma node_call_keeps_string (p : process) (h : N) (op : node_op) (s : N) (v : string) :
  strings p !! s = Some v → strings (node_call net p h op).1 !! s = Some v.
Proof.
  intros Hs. unfold node_call.
  destruct (nodes p !! h) as [[]|]; destruct op; simpl; try done.
  - by destruct (attempt net (clock p) h Initialize).
  - unfold get_peer_id.
    destruct (attempt net (clock p) h GetPeerId); cbn [andb]; [| done].
    case_bool_decide as Hplace; [| done].
    destruct Hplace as [_ Hfree]. simpl.
    rewrite lookup_insert_ne; [done | congruence].
Qed.

(** Only [p2p_free_string] on a string releases it. *)
Lemma step_keeps_string (p : process) (c : call) (s : N) (v : string) :
  strings p !! s = Some v →
  c ≠ CFreeString s →
  strings (step net p c).1 !! s = Some v.
Proof.
  intros Hs Hc.
  destruct c as [| h | h op | cb | cb | s' |]; cbn; try done.
  - unfold create. by case_bool_decide.
  - pose proof (node_call_keeps_string p h op s v Hs) as Hkeep.
    by destruct (node_call net p h op).
  - rewrite lookup_delete_ne; [done | congruence].
Qed.

Lemma run_keeps_string (cs : list call) (p : process) (s : N) (v : string) :
  strings p !! s = Some v →
  CFreeString s ∉ cs →
  strings (run net p cs) !! s = Some v.
Proof.
  revert p. induction cs as [|c cs IH]; intros p Hs Hnot; [done |].
  apply not_elem_of_cons in Hnot as [Hc Hcs].
  cbn [run]. apply IH; [| exact Hcs]. by apply step_keeps_string.
Qed.

Lemma free_string_releases (p : process) (s : N) :
  strings (step net p (CFreeString s)).1 !! s = None.
Proof. cbn. apply lookup_delete_eq. Qed.

End Strings.

(** C8, amended: every string returned to the caller, the non-null result
    of [p2p_get_peer_id], is an owned string: it is new, it stays the
    caller's through every call that is not [p2p_free_string] on it (the
    destruction of the node included), and [p2p_free_string] releases it.
    [p2p_get_peer_id] is the only function that returns a string and is
    declared to return [const char *]; [p2p_free_string], the only function
    that takes a writable string, takes [char *]: the returned pointer is
    accepted as its argument once the [const] is cast away. *)
Theorem returned_string_is_owned_and_freed_after_cast
    (net : backend) (p p' : process) (h s : N) (cs : list call) :
  node_call net p h GetPeerId = (p', Str (Some s)) →
  CFreeString s ∉ cs →
  (s ≠ 0%N ∧ strings p !! s = None ∧ strings p' !! s = Some (peer_id_of net h))
  ∧ strings (run net p' cs) !! s = Some (peer_id_of net h)
  ∧ strings (run net p' (cs ++ [CFreeString s])) !! s = None
  ∧ map fn_name (filter (fun q => is_string_pointer (fn_ret q) = true)
                   (functions libp2p_ffi_h)) = ["p2p_get_peer_id"]
  ∧ map fn_name (filter (fun q => takes KMutableString q = true)
                   (functions libp2p_ffi_h)) = ["p2p_free_string"]
  ∧ return_type libp2p_ffi_h "p2p_get_peer_id" = Some (TPtr (TConst TChar))
  ∧ param_types <$> lookup_function libp2p_ffi_h "p2p_free_string" = Some [TPtr TChar]
  ∧ accepts_result_of libp2p_ffi_h "p2p_free_string" "p2p_get_peer_id" = false
  ∧ cast_away_const <$> return_type libp2p_ffi_h "p2p_get_peer_id"
    = param_type libp2p_ffi_h "p2p_free_string" "s"
  ∧ assignable (TPtr TChar) (cast_away_const (TPtr (TConst TChar))) = true.
Proof.
  intros Hcall Hnot.
  destruct (get_peer_id_owned net p p' h s Hcall) as (Hnonnull & Hnew & Howned).
  split; [by split_and! |].
  split; [by apply run_keeps_string |].
  split; [rewrite run_app; apply free_string_releases |].
  split_and!; [vm_compute; reflexivity .. |].
  apply (assignable_cast_away_const (TConst TChar)).
Qed.

(** A run of the amended C8: a node is created and initialized and asked
    for its identifier; the string outlives the node and is gone once it is
    freed. *)
Lemma returned_string_is_owned_and_freed_after_cast_witness :
  strings
    (run always_up
       (node_call always_up
          (run always_up initial [CCreate; CNode 1 Initialize]) 1 GetPeerId).1
       [CDestroy 1; CInitLogging]) !! 3%N = Some "peer"
  ∧ strings
      (run always_up
         (node_call always_up
            (run always_up initial [CCreate; CNode 1 Initialize]) 1 GetPeerId).1
         ([CDestroy 1; CInitLogging] ++ [CFreeString 3])) !! 3%N = None.
Proof.
  destruct (returned_string_is_owned_and_freed_after_cast always_up
              (run always_up initial [CCreate; CNode 1 Initialize])
              (node_call always_up
                 (run always_up initial [CCreate; CNode 1 Initialize]) 1 GetPeerId).1
              1 3 [CDestroy 1; CInitLogging])
    as (_ & Hkept & Hfreed & _).
  - vm_compute. reflexivity.
  - apply (bool_decide_unpack _). vm_compute. reflexivity.
  - split; [exact Hkept | exact Hfreed].
Defined.

(** * More about the declarations *)

(** ** Nodes and buffers across the boundary *)

Ltac each_member H :=
  repeat (apply elem_of_cons in H as [-> | H]); [.. | by apply elem_of_nil in H].



(** X2: the only parameters through which a function may write are the
    node handle and the string given to [p2p_free_string]; every other
    pointer parameter (room, entries, device, payload) points to [const]
    data. *)
Theorem inputs_are_read_only (p : prototype) (d : declarator) :
  p ∈ functions libp2p_ffi_h →
  d ∈ writable_params p →
  d = Decl node_ptr "node"
  ∨ (fn_name p = "p2p_free_string" ∧ d = Decl char_ptr "s").
Proof.
  intros Hin Hd.
  unfold functions, libp2p_ffi_h in Hin. simpl in Hin.
  each_member Hin; vm_compute in Hd; each_member Hd;
    first [ left; reflexivity | right; split; reflexivity ].
Qed.

Lemma inputs_are_read_only_witness :
  Decl node_ptr "node" = Decl node_ptr "node"
  ∨ ("p2p_send_history_sync" = "p2p_free_string"
     ∧ Decl node_ptr "node" = Decl char_ptr "s").
Proof.
  apply (inputs_are_read_only
           (Proto TBool "p2p_send_history_sync"
              [ Decl node_ptr "node"; Decl const_char_ptr "entries_json";
                Decl const_char_ptr "device_id" ])
           (Decl node_ptr "node")).
  - apply (bool_decide_unpack _). vm_compute. reflexivity.
  - apply (bool_decide_unpack _). vm_compute. reflexivity.
Defined.

(** ** What a callback may touch *)

(** X3: the message handed to the message callback is read-only: every
    member selected through the callback's argument is [const] itself, and
    where it is a pointer it points to [const] data; no parameter of either
    callback type is a pointer to writable data. *)
Theorem callbacks_get_read_only_views (ret arg : ctype) (f : string) (t : ctype) :
  callback_signature libp2p_ffi_h "MessageCallback" = Some (ret, [arg]) →
  arrow_member_type libp2p_ffi_h arg f = Some t →
  modifiable t = false
  ∧ writes_through t = false
  ∧ forallb (fun name =>
       match callback_signature libp2p_ffi_h name with
       | Some (_, params) => negb (existsb writes_through params)
       | None => false
       end) (callback_types libp2p_ffi_h) = true.
Proof.
  intros Hsig Hmember.
  assert (arg = TPtr (TConst (TStruct "P2PMessage"))) as ->.
  { vm_compute in Hsig. by simplify_eq. }
  unfold arrow_member_type, member_type, field_type in Hmember.
  cbn [strip_const struct_tag_of mbind option_bind] in Hmember.
  change (struct_def libp2p_ffi_h "P2PMessage")
    with (Some [ Decl const_char_ptr "peer_id"; Decl const_char_ptr "topic";
                 Decl const_char_ptr "data"; Decl TUIntPtr "data_len" ]) in Hmember.
  cbn [mbind option_bind List.find d_name] in Hmember.
  repeat case_bool_decide; cbn in Hmember; simplify_eq; split_and!; reflexivity.
Qed.

Lemma callbacks_get_read_only_views_witness :
  modifiable (TConst (TPtr (TConst TChar))) = false
  ∧ writes_through (TConst (TPtr (TConst TChar))) = false
  ∧ forallb (fun name =>
       match callback_signature libp2p_ffi_h name with
       | Some (_, params) => negb (existsb writes_through params)
       | None => false
       end) (callback_types libp2p_ffi_h) = true.
Proof.
  apply (callbacks_get_read_only_views TVoid
           (TPtr (TConst (TStruct "P2PMessage"))) "data"); reflexivity.
Defined.

(** X4: of a received message, the topic can be passed as it is as the room
    of [p2p_node_join_room] and the length as the length of
    [p2p_node_send_message], but the payload cannot be passed as its data:
    it is a pointer to [char], the function takes a pointer to [uint8_t], and
    the pointer must be converted first. *)
Theorem received_message_flows :
  flows (param_type libp2p_ffi_h "p2p_node_join_room" "room_id")
        (field_type libp2p_ffi_h (TStruct "P2PMessage") "topic") = Some true
  ∧ flows (param_type libp2p_ffi_h "p2p_node_send_message" "data_len")
          (field_type libp2p_ffi_h (TStruct "P2PMessage") "data_len") = Some true
  ∧ flows (param_type libp2p_ffi_h "p2p_node_send_message" "data")
          (field_type libp2p_ffi_h (TStruct "P2PMessage") "data") = Some false
  ∧ base_type <$> param_type libp2p_ffi_h "p2p_node_send_message" "data" = Some TUInt8
  ∧ base_type <$> field_type libp2p_ffi_h (TStruct "P2PMessage") "data" = Some TChar.
Proof. split_and!; vm_compute; reflexivity. Qed.

(** ** The port, as the function sees it *)

(** X5: a requested port reaches [p2p_node_start_listening] unchanged
    exactly when it lies in 0..65535; requests that differ by a multiple of
    65536 reach it as the same port. *)
Theorem port_unchanged_iff_in_range (z k : Z) :
  (port_received z = Some z ↔ (0 ≤ z ≤ 65535)%Z)
  ∧ port_received (z + k * 65536) = port_received z.
Proof.
  change (port_received z) with (Some (z mod 65536)%Z).
  change (port_received (z + k * 65536)) with (Some ((z + k * 65536) mod 65536)%Z).
  split.
  - split.
    + intros [= Hz]. pose proof (Z.mod_pos_bound z 65536 ltac:(lia)). lia.
    + intros Hz. by rewrite Z.mod_small by lia.
  - by rewrite Z.mod_add by lia.
Qed.

(** ** The header as a file *)

(** X6: the header uses [bool], [uint8_t], [uint16_t] and [uintptr_t] and
    contains no preprocessor directive, so it includes nothing itself:
    [<stdint.h>] and [<stdbool.h>] have to be included before it. *)
Theorem header_needs_stdint_and_stdbool :
  standard_headers_needed libp2p_ffi_h = ["stdint.h"; "stdbool.h"]
  ∧ remove_dups (filter (fun t => is_Some (standard_header t))
                   (base_type <$> concat (map decl_types libp2p_ffi_h)))
    = [TUInt16; TUInt8; TUIntPtr; TBool]
  ∧ filter (fun line => is_directive line = true) libp2p_ffi_h_text = []
  ∧ render_header libp2p_ffi_h = libp2p_ffi_h_text.
Proof.
  split_and!; [vm_compute; reflexivity .. | apply render_header_is_source].
Qed.

(** X7: the header has no include guard: one inclusion defines no struct
    twice, but a second inclusion in the same translation unit defines the
    content of [struct P2PNode] and of [struct P2PMessage] again. *)
Theorem second_inclusion_redefines_structs :
  filter (fun line => is_directive line = true) libp2p_ffi_h_text = []
  ∧ redefined_structs libp2p_ffi_h = []
  ∧ redefined_structs (libp2p_ffi_h ++ libp2p_ffi_h) = ["P2PNode"; "P2PMessage"].
Proof. split_and!; vm_compute; reflexivity. Qed.

(** X8: every declaration uses only struct tags that it or an earlier
    declaration of the file names, and only typedef names that an earlier
    declaration introduces: no prototype brings in a struct of its own. *)
Theorem declared_before_use (i : nat) (d : decl) :
  libp2p_ffi_h !! i = Some d →
  forallb (type_resolves (declared_structs (take (S i) libp2p_ffi_h))
                         (typedef_names (take i libp2p_ffi_h)))
          (decl_types d) = true.
Proof.
  intros Hd.
  do 17 (destruct i as [|i];
         [ cbn in Hd; injection Hd as <-; vm_compute; reflexivity |]).
  discriminate Hd.
Qed.

Lemma declared_before_use_witness :
  forallb (type_resolves (declared_structs (take 12 libp2p_ffi_h))
                         (typedef_names (take 11 libp2p_ffi_h)))
          (decl_types p2p_set_message_callback) = true.
Proof. apply (declared_before_use 11 p2p_set_message_callback). reflexivity. Defined.

(** ** What a callback is not told *)

(** The two callback types are the only ones the header knows. *)
Lemma callback_signature_cases (name : string) (ret : ctype) (params : list ctype) :
  callback_signature libp2p_ffi_h name = Some (ret, params) →
  (name = "MessageCallback" ∧ params = [TPtr (TConst (TStruct "P2PMessage"))])
  ∨ (name = "PeerCallback" ∧ params = [const_char_ptr; TBool]).
Proof.
  change (callback_signature libp2p_ffi_h name)
    with (if bool_decide ("MessageCallback" = name)
          then Some (TVoid, [TPtr (TConst (TStruct "P2PMessage"))])
          else if bool_decide ("PeerCallback" = name)
               then Some (TVoid, [const_char_ptr; TBool])
               else None).
  case_bool_decide as Hm; [intros [= <- <-]; left; by subst |].
  case_bool_decide as Hp; [intros [= <- <-]; right; by subst |].
  discriminate.
Qed.

(** X9: a callback is told neither the node nor any context of the
    caller's: no parameter of a callback type, and no member reached through
    one, is or points to a node, and none is a [void] pointer. *)
Theorem callbacks_carry_no_node_and_no_context
    (name : string) (ret : ctype) (params : list ctype) (t : ctype)
    (f : string) (m : ctype) :
  callback_signature libp2p_ffi_h name = Some (ret, params) →
  t ∈ params →
  (mentions_struct "P2PNode" t = false ∧ base_type t ≠ TVoid)
  ∧ (arrow_type libp2p_ffi_h t f = Some m →
     mentions_struct "P2PNode" m = false ∧ base_type m ≠ TVoid).
Proof.
  intros Hsig Ht.
  destruct (callback_signature_cases name ret params Hsig) as [[_ ->] | [_ ->]];
    each_member Ht.
  - split; [by split |].
    unfold arrow_type, field_type.
    cbn [strip_const struct_tag_of mbind option_bind].
    change (struct_def libp2p_ffi_h "P2PMessage")
      with (Some [ Decl const_char_ptr "peer_id"; Decl const_char_ptr "topic";
                   Decl const_char_ptr "data"; Decl TUIntPtr "data_len" ]).
    cbn [mbind option_bind List.find d_name].
    repeat case_bool_decide; cbn; intros; simplify_eq; by split.
  - split; [by split | discriminate].
  - split; [by split | discriminate].
Qed.

Lemma callbacks_carry_no_node_and_no_context_witness :
  (mentions_struct "P2PNode" (TPtr (TConst (TStruct "P2PMessage"))) = false
   ∧ base_type (TPtr (TConst (TStruct "P2PMessage"))) ≠ TVoid)
  ∧ (arrow_type libp2p_ffi_h (TPtr (TConst (TStruct "P2PMessage"))) "topic"
       = Some const_char_ptr →
     mentions_struct "P2PNode" const_char_ptr = false
     ∧ base_type const_char_ptr ≠ TVoid).
Proof.
  apply (callbacks_carry_no_node_and_no_context "MessageCallback" TVoid
           [TPtr (TConst (TStruct "P2PMessage"))]).
  - reflexivity.
  - apply (bool_decide_unpack _). vm_compute. reflexivity.
Defined.
